(** * SSHClient.py: a facade over an SSH transport and a file-copy channel

    The class [SSHClient] of [SSHClient.py] owns one [paramiko.SSHClient]
    and one [scp.SCPClient]; its methods delegate to these two external
    collaborators and log through the module-level [logger].

    The embedding keeps the collaborators abstract: every call that leaves
    the wrapper is an element of [Call], answered by a function [respond]
    over an arbitrary external world [W].  A method of the class is a
    computation that threads the instance attributes and the external
    world, may raise a Python exception, and records, in order, every
    collaborator call (with its outcome) and every log record it emits. *)

From Stdlib Require Import ZArith List Bool.
From stdpp Require Import base strings pretty gmap.
Import ListNotations.

Set Warnings "-register-all".

Local Open Scope string_scope.

(** ** Python values and exceptions *)

Definition addr := nat.

(** The values that cross the wrapper's boundary: [None], integers,
    references to collaborator objects and tuples. *)
Inductive PyVal : Type :=
| PyNone
| PyInt (z : Z)
| PyRef (a : addr)
| PyTuple (items : list PyVal).

Definition type_name (v : PyVal) : string :=
  match v with
  | PyNone => "NoneType"
  | PyInt _ => "int"
  | PyRef _ => "object"
  | PyTuple _ => "tuple"
  end.

(** Exception classes.  The last two derive from [BaseException] only,
    so an [except Exception] clause does not catch them. *)
Inductive ExnClass : Type :=
| AttributeError
| SSHException
| SCPException
| socket_error
| OtherException (name : string)
| KeyboardInterrupt
| SystemExit.

Record Exn : Type := mkExn {
  exn_class : ExnClass;
  exn_str : string            (* what [str(exception)] returns *)
}.

Definition isinstance_Exception (e : Exn) : bool :=
  match exn_class e with
  | KeyboardInterrupt | SystemExit => false
  | _ => true
  end.

(** ** Collaborator calls *)

(** One [paths] argument of [SCPClient.put]: a single path or a list. *)
Inductive Paths : Type :=
| OnePath (p : string)
| ManyPaths (ps : list string).

Inductive Call : Type :=
| paramiko_SSHClient
| load_system_host_keys (client : addr)
| paramiko_AutoAddPolicy
| set_missing_host_key_policy (client : addr) (policy : PyVal)
| connect (client : addr) (host : string) (port : Z) (user password : string)
| get_transport (client : addr)
| SCPClient (transport : PyVal)
| close (obj : addr)
| scp_get (chan : addr) (remote_path local_path : string) (recursive : bool)
| scp_put (chan : addr) (local_paths : Paths) (remote_path : string)
          (recursive : bool)
| exec_command (client : addr) (command : string) (timeout : PyVal).

Inductive Outcome : Type :=
| Returns (v : PyVal)
| Raises (e : Exn).

(** What an observer of the wrapper sees, in order. *)
Inductive Event : Type :=
| ECall (c : Call) (o : Outcome)
| ELogInfo (msg : string).

Definition is_log (ev : Event) : bool :=
  match ev with ELogInfo _ => true | ECall _ _ => false end.

Definition is_close (ev : Event) : bool :=
  match ev with ECall (close _) _ => true | _ => false end.

Definition is_close_of (a : addr) (ev : Event) : bool :=
  match ev with ECall (close b) _ => Nat.eqb a b | _ => false end.

(** [closed_before a b evs]: [evs] holds a [close] of object [a] and, after
    it, a [close] of object [b]. *)
Fixpoint closed_before (a b : addr) (evs : list Event) : bool :=
  match evs with
  | [] => false
  | ev :: rest =>
      if is_close_of a ev then existsb (is_close_of b) rest
      else closed_before a b rest
  end.

Definition log_records (evs : list Event) : list string :=
  omap (fun ev => match ev with ELogInfo m => Some m | ECall _ _ => None end) evs.

(** [mentions needle hay]: [needle] occurs in [hay]. *)
Definition mentions (needle hay : string) : Prop :=
  exists pre post, hay = pre +:+ needle +:+ post.

(** ** Instance attributes *)

Record Session : Type := mkSession {
  host : option string;
  port : option Z;
  user : option string;
  password : option string;
  ssh_client : PyVal;
  scp_client : PyVal
}.

(** The class attributes, which an instance shows until [__init__]
    assigns its own. *)
Definition class_attributes : Session :=
  {| host := None; port := None; user := None; password := None;
     ssh_client := PyNone; scp_client := PyNone |}.

Definition set_host (v : string) (s : Session) : Session :=
  {| host := Some v; port := port s; user := user s; password := password s;
     ssh_client := ssh_client s; scp_client := scp_client s |}.
Definition set_port (v : Z) (s : Session) : Session :=
  {| host := host s; port := Some v; user := user s; password := password s;
     ssh_client := ssh_client s; scp_client := scp_client s |}.
Definition set_user (v : string) (s : Session) : Session :=
  {| host := host s; port := port s; user := Some v; password := password s;
     ssh_client := ssh_client s; scp_client := scp_client s |}.
Definition set_password (v : string) (s : Session) : Session :=
  {| host := host s; port := port s; user := user s; password := Some v;
     ssh_client := ssh_client s; scp_client := scp_client s |}.
Definition set_ssh_client (v : PyVal) (s : Session) : Session :=
  {| host := host s; port := port s; user := user s; password := password s;
     ssh_client := v; scp_client := scp_client s |}.
Definition set_scp_client (v : PyVal) (s : Session) : Session :=
  {| host := host s; port := port s; user := user s; password := password s;
     ssh_client := ssh_client s; scp_client := v |}.

(** [str(x)] for the attribute values that get formatted into messages. *)
Definition str_of_port (p : Z) : string := pretty p.

Definition str_of_attr (v : option string) : string :=
  match v with Some s => s | None => "None" end.

(** ** The computation monad: state, exceptions and an event log *)

Inductive Result (A : Type) : Type :=
| Ok (a : A)
| Err (e : Exn).
Arguments Ok {A} a.
Arguments Err {A} e.

Section Machine.

Variable W : Type.
Variable respond : Call -> W -> Outcome * W.

Record State : Type := mkState {
  self : Session;
  ext : W
}.

Record Run (A : Type) : Type := mkRun {
  result : Result A;
  final : State;
  events : list Event
}.
Arguments mkRun {A} _ _ _.
Arguments result {A} _.
Arguments final {A} _.
Arguments events {A} _.

Definition M (A : Type) : Type := State -> Run A.

Definition ret {A} (a : A) : M A :=
  fun st => mkRun (Ok a) st [].

Definition raise {A} (e : Exn) : M A :=
  fun st => mkRun (Err e) st [].

Definition bind {A B} (m : M A) (k : A -> M B) : M B :=
  fun st =>
    match m st with
    | mkRun (Ok a) st' evs =>
        match k a st' with
        | mkRun res st'' evs' => mkRun res st'' (evs ++ evs')
        end
    | mkRun (Err e) st' evs => mkRun (Err e) st' evs
    end.

(** [try: body except Exception as exception: handler exception] *)
Definition try_except_Exception {A} (body : M A) (handler : Exn -> M A) : M A :=
  fun st =>
    match body st with
    | mkRun (Ok a) st' evs => mkRun (Ok a) st' evs
    | mkRun (Err e) st' evs =>
        if isinstance_Exception e then
          match handler e st' with
          | mkRun res st'' evs' => mkRun res st'' (evs ++ evs')
          end
        else mkRun (Err e) st' evs
    end.

(** A call on a collaborator: the world answers, the call is recorded. *)
Definition invoke (c : Call) : M PyVal :=
  fun st =>
    let (o, w) := respond c (ext st) in
    let st' := {| self := self st; ext := w |} in
    match o with
    | Returns v => mkRun (Ok v) st' [ECall c o]
    | Raises e => mkRun (Err e) st' [ECall c o]
    end.

(** [logger.info(msg)] *)
Definition logger_info (msg : string) : M unit :=
  fun st => mkRun (Ok tt) st [ELogInfo msg].

Definition getattr {A} (field : Session -> A) : M A :=
  fun st => mkRun (Ok (field (self st))) st [].

Definition setattr (update : Session -> Session) : M unit :=
  fun st => mkRun (Ok tt) {| self := update (self st); ext := ext st |} [].

(** Looking up [method] on [v]: only objects have the methods the
    wrapper uses; on anything else Python raises [AttributeError]. *)
Definition bound_method (v : PyVal) (method : string) : M addr :=
  match v with
  | PyRef a => ret a
  | _ => raise (mkExn AttributeError
                  ("'" +:+ type_name v +:+ "' object has no attribute '"
                       +:+ method +:+ "'"))
  end.

Notation "x <- c1 ;; c2" := (bind c1 (fun x => c2))
  (at level 100, c1 at next level, right associativity).
Notation "c1 ;; c2" := (bind c1 (fun _ => c2))
  (at level 100, right associativity).

(** ** The class [SSHClient] *)

Definition class_name : string := "SSHClient".

Definition default_port : Z := 22.
Definition default_user : string := "root".
Definition default_password : string := "root".
Definition default_local_path : string := ".".
Definition default_recursive : bool := false.

(** [__log(self, data)] *)
Definition __log (data : string) : M unit :=
  logger_info ("Log source: " +:+ class_name) ;;
  logger_info data.

(** [__init__(self, host, port=22, user='root', password='root')] *)
Definition __init__ (host : string) (port : Z) (user password : string)
  : M PyVal :=
  setattr (set_host host) ;;
  setattr (set_port port) ;;
  setattr (set_user user) ;;
  setattr (set_password password) ;;
  c <- invoke paramiko_SSHClient ;;
  setattr (set_ssh_client c) ;;
  v <- getattr ssh_client ;;
  m <- bound_method v "load_system_host_keys" ;;
  invoke (load_system_host_keys m) ;;
  v <- getattr ssh_client ;;
  m <- bound_method v "set_missing_host_key_policy" ;;
  p <- invoke paramiko_AutoAddPolicy ;;
  invoke (set_missing_host_key_policy m p) ;;
  v <- getattr ssh_client ;;
  m <- bound_method v "connect" ;;
  invoke (connect m host port user password) ;;
  v <- getattr ssh_client ;;
  m <- bound_method v "get_transport" ;;
  t <- invoke (get_transport m) ;;
  s <- invoke (SCPClient t) ;;
  setattr (set_scp_client s) ;;
  __log ("Connection with " +:+ host +:+ " host on " +:+ str_of_port port
           +:+ " port has been successfully established...") ;;
  ret PyNone.

(** [__del__(self)] *)
Definition __del__ : M PyVal :=
  try_except_Exception
    (v <- getattr ssh_client ;;
     m <- bound_method v "close" ;;
     invoke (close m) ;;
     v <- getattr scp_client ;;
     m <- bound_method v "close" ;;
     invoke (close m) ;;
     h <- getattr host ;;
     __log ("Connection with " +:+ str_of_attr h +:+ " host has been closed..."))
    (fun exception => __log (exn_str exception)) ;;
  ret PyNone.

(** [get(self, remote_path, local_path='.', recursive=False)] *)
Definition get (remote_path local_path : string) (recursive : bool) : M PyVal :=
  v <- getattr scp_client ;;
  m <- bound_method v "get" ;;
  invoke (scp_get m remote_path local_path recursive) ;;
  ret PyNone.

(** [put(self, local_paths, remote_path, recursive=False)] *)
Definition put (local_paths : Paths) (remote_path : string) (recursive : bool)
  : M PyVal :=
  v <- getattr scp_client ;;
  m <- bound_method v "put" ;;
  invoke (scp_put m local_paths remote_path recursive) ;;
  ret PyNone.

(** [execute(self, command, timeout)] *)
Definition execute (command : string) (timeout : PyVal) : M PyVal :=
  v <- getattr ssh_client ;;
  m <- bound_method v "exec_command" ;;
  invoke (exec_command m command timeout).

(** The expression [SSHClient(host, port, user, password)]: a new
    instance, showing the class attributes, is initialised; the caller
    receives it only if [__init__] returns. *)
Definition new_SSHClient (host : string) (port : Z) (user password : string)
  : M Session :=
  setattr (fun _ => class_attributes) ;;
  __init__ host port user password ;;
  getattr (fun s => s).

End Machine.

Arguments mkState {W} _ _.
Arguments self {W} _.
Arguments ext {W} _.
Arguments mkRun {W A} _ _ _.
Arguments result {W A} _.
Arguments final {W A} _.
Arguments events {W A} _.
Arguments ret {W A} _ _.
Arguments raise {W A} _ _.
Arguments bind {W A B} _ _ _.
Arguments try_except_Exception {W A} _ _ _.
Arguments invoke {W} _ _ _.
Arguments logger_info {W} _ _.
Arguments getattr {W A} _ _.
Arguments setattr {W} _ _.
Arguments bound_method {W} _ _ _.
Arguments __log {W} _ _.
Arguments __init__ {W} _ _ _ _ _ _.
Arguments __del__ {W} _ _.
Arguments get {W} _ _ _ _ _.
Arguments put {W} _ _ _ _ _.
Arguments execute {W} _ _ _ _.
Arguments new_SSHClient {W} _ _ _ _ _ _.

(** ** File trees

    What a copy channel transfers: a file of bytes or a directory. *)
Inductive Tree : Type :=
| File (data : list Byte.byte)
| Dir (entries : list (string * Tree)).

(** Directories are transferred only when [recursive] is set. *)
Definition transferable (recursive : bool) (t : Tree) : bool :=
  match t with
  | File _ => true
  | Dir _ => recursive
  end.

(** ** Vocabulary of the properties *)

Section Statements.

Context {W : Type} (respond : Call -> W -> Outcome * W).

(** The classes of collaborator errors that disposal is specified for: an
    error raised by a [close] is an instance of [Exception]. *)
Definition close_errors_are_Exceptions : Prop :=
  forall (a : addr) (w w' : W) (e : Exn),
    respond (close a) w = (Raises e, w') -> isinstance_Exception e = true.

(** The construction closed the client it had connected before the
    failure of [SCPClient(...)] left [__init__]. *)
Definition transport_closed_on_bind_failure
    (host : string) (port : Z) (user password : string) (st : State W) : Prop :=
  let r := new_SSHClient respond host port user password st in
  forall client h p u pw v transport e,
    In (ECall (connect client h p u pw) (Returns v)) (events r) ->
    In (ECall (SCPClient transport) (Raises e)) (events r) ->
    existsb (is_close_of client) (events r) = true.

(** Disposal closed the copy channel, then the transport. *)
Definition channel_closed_before_transport (st : State W) : Prop :=
  forall client chan,
    ssh_client (self st) = PyRef client ->
    scp_client (self st) = PyRef chan ->
    closed_before chan client (events (__del__ respond st)) = true.

(** A construction that returned emitted one log record. *)
Definition one_log_record_on_success
    (host : string) (port : Z) (user password : string) (st : State W) : Prop :=
  let r := new_SSHClient respond host port user password st in
  forall s, result r = Ok s -> length (log_records (events r)) = 1.

(** A copy channel that stores what it is given: an upload of a local
    tree makes it the content of the remote path, a download of a remote
    tree makes it the content of the local path.  [local_fs] and
    [remote_fs] read the two file systems off the external world. *)
Record FaithfulChannel (local_fs remote_fs : W -> string -> option Tree)
  : Prop := {
  upload_stores :
    forall chan l r recursive w t,
      local_fs w l = Some t ->
      transferable recursive t = true ->
      exists v w',
        respond (scp_put chan (OnePath l) r recursive) w = (Returns v, w') /\
        remote_fs w' r = Some t;
  download_restores :
    forall chan r l recursive w t,
      remote_fs w r = Some t ->
      transferable recursive t = true ->
      exists v w',
        respond (scp_get chan r l recursive) w = (Returns v, w') /\
        local_fs w' l = Some t
}.

End Statements.

(** The instance stores the four credentials it was constructed with. *)
Definition stores_credentials (s : Session)
    (h : string) (p : Z) (u pw : string) : Prop :=
  host s = Some h /\ port s = Some p /\ user s = Some u /\ password s = Some pw.

(** The two messages of the life cycle, as [__init__] and [__del__]
    format them. *)
Definition established_message (host : string) (port : Z) : string :=
  "Connection with " +:+ host +:+ " host on " +:+ str_of_port port
    +:+ " port has been successfully established...".

Definition closure_message (s : Session) : string :=
  "Connection with " +:+ str_of_attr (host s) +:+ " host has been closed...".

(** ** Test doubles for the collaborators *)

(** A scripted double: [fails] names the calls that raise; every other
    call returns, and the constructors and [exec_command] hand out fresh
    object references from a counter. *)
Definition double (fails : Call -> option Exn) (c : Call) (next : nat)
  : Outcome * nat :=
  match fails c with
  | Some e => (Raises e, next)
  | None =>
      match c with
      | paramiko_SSHClient | paramiko_AutoAddPolicy | get_transport _
      | SCPClient _ =>
          (Returns (PyRef next), S next)
      | exec_command _ _ _ =>
          (Returns (PyTuple [PyRef next; PyRef (S next); PyRef (S (S next))]),
           S (S (S next)))
      | _ => (Returns PyNone, next)
      end
  end.

Definition never_fails (c : Call) : option Exn := None.

Definition bind_fails (c : Call) : option Exn :=
  match c with
  | SCPClient _ => Some (mkExn SCPException "cannot open channel")
  | _ => None
  end.

Definition close_fails (c : Call) : option Exn :=
  match c with
  | close _ => Some (mkExn SSHException "socket is closed")
  | _ => None
  end.

Definition fresh : State nat := mkState class_attributes 1.

(** A double whose copy channel keeps files: a local and a remote file
    system, each a map from paths to file trees. *)
Record Disks : Type := mkDisks {
  local_disk : gmap string Tree;
  remote_disk : gmap string Tree
}.

Definition no_such_file : Exn := mkExn SCPException "No such file or directory".
Definition not_a_regular_file : Exn := mkExn SCPException "not a regular file".

(** Copy the tree at [src] of [from] to [dst] of [to]. *)
Definition copy_tree (recursive : bool) (from to : gmap string Tree)
    (src dst : string) : Exn + gmap string Tree :=
  match from !! src with
  | None => inl no_such_file
  | Some t =>
      if transferable recursive t then inr (<[dst := t]> to)
      else inl not_a_regular_file
  end.

Fixpoint copy_trees (recursive : bool) (from to : gmap string Tree)
    (srcs : list string) (dst : string) : Exn + gmap string Tree :=
  match srcs with
  | [] => inr to
  | src :: rest =>
      match copy_tree recursive from to src (dst +:+ "/" +:+ src) with
      | inl e => inl e
      | inr to' => copy_trees recursive from to' rest dst
      end
  end.

Definition disk_double (c : Call) (d : Disks) : Outcome * Disks :=
  match c with
  | scp_put _ (OnePath l) r recursive =>
      match copy_tree recursive (local_disk d) (remote_disk d) l r with
      | inl e => (Raises e, d)
      | inr remote' => (Returns PyNone, mkDisks (local_disk d) remote')
      end
  | scp_put _ (ManyPaths ls) r recursive =>
      match copy_trees recursive (local_disk d) (remote_disk d) ls r with
      | inl e => (Raises e, d)
      | inr remote' => (Returns PyNone, mkDisks (local_disk d) remote')
      end
  | scp_get _ r l recursive =>
      match copy_tree recursive (remote_disk d) (local_disk d) r l with
      | inl e => (Raises e, d)
      | inr local' => (Returns PyNone, mkDisks local' (remote_disk d))
      end
  | _ => (Returns PyNone, d)
  end.

(** Sample sessions and disks on which the doubles are run. *)
Definition connected_run : Run nat Session :=
  new_SSHClient (double never_fails)
    "example.org" default_port default_user default_password fresh.

Definition connected : State nat := final connected_run.

Definition half_built_run : Run nat Session :=
  new_SSHClient (double bind_fails)
    "example.org" default_port default_user default_password fresh.

Definition notes : Tree := File [Byte.x68; Byte.x69; Byte.x0a].

Definition site : Tree :=
  Dir [("index.html", File [Byte.x3c; Byte.x70; Byte.x3e]);
       ("css", Dir [("main.css", File [])])].

Definition workstation : State Disks :=
  mkState
    (mkSession (Some "example.org") (Some 22%Z) (Some "root") (Some "root")
               (PyRef 1) (PyRef 4))
    (mkDisks (<["site" := site]> {["notes.txt" := notes]}) ∅).

Definition disk_local (d : Disks) (path : string) : option Tree :=
  local_disk d !! path.

Definition disk_remote (d : Disks) (path : string) : option Tree :=
  remote_disk d !! path.

Definition site_sent : Run Disks PyVal :=
  put disk_double (OnePath "site") "/srv/site" true workstation.

Definition site_fetched : Run Disks PyVal :=
  get disk_double "/srv/site" "restored" true (final site_sent).

(** * Properties *)

Lemma string_append_assoc (a b c : string) :
  (a +:+ b) +:+ c = a +:+ b +:+ c.
Proof.
  induction a as [| ch a IH]; [reflexivity |].
  change (String ch ((a +:+ b) +:+ c) = String ch (a +:+ b +:+ c)).
  rewrite IH. reflexivity.
Qed.

Section Wrapper.

Context {W : Type} (respond : Call -> W -> Outcome * W).

(** ** How one collaborator call runs *)

Lemma invoke_run (c : Call) (st : State W) :
  invoke respond c st =
    mkRun (match fst (respond c (ext st)) with
           | Returns v => Ok v
           | Raises e => Err e
           end)
          (mkState (self st) (snd (respond c (ext st))))
          [ECall c (fst (respond c (ext st)))].
Proof.
  unfold invoke. destruct (respond c (ext st)) as [[v | e] w]; reflexivity.
Qed.

(** Unfolds the monadic plumbing, leaving the collaborator answers. *)
Ltac plumbing :=
  unfold bind, getattr, setattr, ret, raise, logger_info, bound_method;
  cbn [result final events self ext app].

(** ** get, put and execute *)

(** C4. On a connected session, [get], [put] and [execute] each issue
    exactly one collaborator call, the one they are named after, with the
    arguments they were given; what the collaborator raises is what the
    method raises, and nothing is retried, caught or wrapped. *)
Theorem delegation_once_and_unchanged (st : State W) (chan client : addr) :
  scp_client (self st) = PyRef chan ->
  ssh_client (self st) = PyRef client ->
  (forall remote_path local_path recursive,
      let c := scp_get chan remote_path local_path recursive in
      let r := get respond remote_path local_path recursive st in
      events r = [ECall c (fst (respond c (ext st)))] /\
      ext (final r) = snd (respond c (ext st)) /\
      result r = match fst (respond c (ext st)) with
                 | Returns _ => Ok PyNone
                 | Raises e => Err e
                 end) /\
  (forall local_paths remote_path recursive,
      let c := scp_put chan local_paths remote_path recursive in
      let r := put respond local_paths remote_path recursive st in
      events r = [ECall c (fst (respond c (ext st)))] /\
      ext (final r) = snd (respond c (ext st)) /\
      result r = match fst (respond c (ext st)) with
                 | Returns _ => Ok PyNone
                 | Raises e => Err e
                 end) /\
  (forall command timeout,
      let c := exec_command client command timeout in
      let r := execute respond command timeout st in
      events r = [ECall c (fst (respond c (ext st)))] /\
      ext (final r) = snd (respond c (ext st)) /\
      result r = match fst (respond c (ext st)) with
                 | Returns v => Ok v
                 | Raises e => Err e
                 end).
Proof.
  intros Hscp Hssh. repeat split.
  all: unfold get, put, execute; plumbing; rewrite ?Hscp, ?Hssh; plumbing.
  all: rewrite invoke_run; cbn [result final events self ext].
  all: destruct (respond _ (ext st)) as [[v | e] w]; reflexivity.
Qed.

(** C10. [get], [put] and [execute] leave every attribute of the session
    as it was, whether they return or raise. *)
Theorem transfer_and_execute_frame (st : State W) :
  (forall remote_path local_path recursive,
      self (final (get respond remote_path local_path recursive st)) = self st) /\
  (forall local_paths remote_path recursive,
      self (final (put respond local_paths remote_path recursive st)) = self st) /\
  (forall command timeout,
      self (final (execute respond command timeout st)) = self st).
Proof.
  repeat split; intros.
  all: unfold get, put, execute; plumbing.
  - destruct (scp_client (self st)); plumbing; try reflexivity.
    rewrite invoke_run; cbn [result final events self ext].
    destruct (fst (respond _ _)); reflexivity.
  - destruct (scp_client (self st)); plumbing; try reflexivity.
    rewrite invoke_run; cbn [result final events self ext].
    destruct (fst (respond _ _)); reflexivity.
  - destruct (ssh_client (self st)); plumbing; try reflexivity.
    rewrite invoke_run; reflexivity.
Qed.

(** C8. [execute] opens one execution channel on the session's transport
    with the command and timeout it was given and does nothing further:
    the three handles the transport hands out (standard input, standard
    output, standard error) come back as they are, in that order. *)
Theorem execute_returns_three_handles
    (st : State W) (client : addr) (command : string) (timeout : PyVal)
    (stdin stdout stderr : PyVal) (w : W) :
  ssh_client (self st) = PyRef client ->
  respond (exec_command client command timeout) (ext st)
    = (Returns (PyTuple [stdin; stdout; stderr]), w) ->
  execute respond command timeout st =
    mkRun (Ok (PyTuple [stdin; stdout; stderr]))
          (mkState (self st) w)
          [ECall (exec_command client command timeout)
                 (Returns (PyTuple [stdin; stdout; stderr]))].
Proof.
  intros Hssh Hanswer. unfold execute; plumbing. rewrite Hssh; plumbing.
  rewrite invoke_run, Hanswer. reflexivity.
Qed.

(** ** Disposal *)

(** Destructs the answer to the next collaborator call of the goal. *)
Ltac answer :=
  match goal with
  | |- context [respond ?c ?w] =>
      let E := fresh "E" in
      destruct (respond c w) as [[? | ?] ?] eqn:E
  end.

(** Settles membership of an event in an explicit list of events. *)
Ltac pick_event H :=
  cbn [In app] in H;
  repeat (destruct H as [H | H]; [try discriminate H | ]);
  try contradiction.

(** [__del__] returns [None] whatever the session and the answers to
    [close] are, provided the errors are instances of [Exception]. *)
Lemma del_returns (st : State W) :
  close_errors_are_Exceptions respond ->
  result (__del__ respond st) = Ok PyNone.
Proof.
  intros Hexn. unfold __del__, try_except_Exception, __log; plumbing.
  destruct (ssh_client (self st)); plumbing; try reflexivity.
  unfold invoke; answer; plumbing.
  - destruct (scp_client (self st)); plumbing; try reflexivity.
    unfold invoke; cbn [ext]; answer; plumbing; try reflexivity.
    rewrite (Hexn _ _ _ _ E0). reflexivity.
  - rewrite (Hexn _ _ _ _ E). reflexivity.
Qed.

(** C2, as the code has it.  Disposal of a fully constructed session
    closes the transport ([ssh_client]) first; if that close returns it
    closes the copy channel ([scp_client]) next; if both return it logs
    the closure of the connection. *)
Theorem disposal_closes_transport_then_channel
    (st : State W) (client chan : addr) :
  ssh_client (self st) = PyRef client ->
  scp_client (self st) = PyRef chan ->
  let r := __del__ respond st in
  (exists o, head (events r) = Some (ECall (close client) o)) /\
  (forall v w,
      respond (close client) (ext st) = (Returns v, w) ->
      exists o rest,
        events r = ECall (close client) (Returns v) :: ECall (close chan) o :: rest) /\
  (forall v w v' w',
      respond (close client) (ext st) = (Returns v, w) ->
      respond (close chan) w = (Returns v', w') ->
      r = mkRun (Ok PyNone) (mkState (self st) w')
            [ECall (close client) (Returns v);
             ECall (close chan) (Returns v');
             ELogInfo "Log source: SSHClient";
             ELogInfo (closure_message (self st))] /\
      closed_before client chan (events r) = true).
Proof.
  intros Hssh Hscp r. subst r.
  unfold __del__, try_except_Exception, __log; plumbing.
  rewrite Hssh; plumbing. unfold invoke.
  split; [| split].
  - answer; plumbing.
    + rewrite Hscp; plumbing. answer; plumbing.
      * eexists; reflexivity.
      * destruct (isinstance_Exception e); eexists; reflexivity.
    + destruct (isinstance_Exception e); eexists; reflexivity.
  - intros v w E. rewrite E; plumbing. rewrite Hscp; plumbing.
    answer; plumbing.
    + do 2 eexists; reflexivity.
    + destruct (isinstance_Exception e); do 2 eexists; reflexivity.
  - intros v w v' w' E E'. rewrite E; plumbing. rewrite Hscp; plumbing.
    rewrite E'; plumbing.
    split; [reflexivity |].
    cbn [events closed_before is_close_of existsb].
    rewrite !Nat.eqb_refl. destruct (Nat.eqb client chan); reflexivity.
Qed.

(** C5. Disposal returns normally: every error raised while closing the
    transport or the copy channel is caught, logged (the record carries
    [str(exception)]) and goes no further. *)
Theorem disposal_never_raises (st : State W) :
  close_errors_are_Exceptions respond ->
  let r := __del__ respond st in
  result r = Ok PyNone /\
  forall c e,
    In (ECall c (Raises e)) (events r) ->
    exists before,
      events r = (before ++ [ECall c (Raises e);
                             ELogInfo "Log source: SSHClient";
                             ELogInfo (exn_str e)])%list.
Proof.
  intros Hexn r. split; [apply del_returns; exact Hexn |].
  subst r. intros c e.
  unfold __del__, try_except_Exception, __log; plumbing.
  destruct (ssh_client (self st)); plumbing;
    try solve [intros H; pick_event H].
  unfold invoke; answer; plumbing.
  - destruct (scp_client (self st)); plumbing;
      try solve [intros H; pick_event H].
    unfold invoke; cbn [ext]; answer; plumbing.
    + intros H; pick_event H.
    + rewrite (Hexn _ _ _ _ E0); plumbing.
      intros H; pick_event H. inversion H; subst.
      exists [ECall (close a) (Returns v)]. reflexivity.
  - rewrite (Hexn _ _ _ _ E); plumbing.
    intros H; pick_event H. inversion H; subst.
    exists []. reflexivity.
Qed.

(** C7. Disposing of a session a second time returns normally. *)
Theorem disposal_twice_never_raises (st : State W) :
  close_errors_are_Exceptions respond ->
  let disposed := final (__del__ respond st) in
  result (__del__ respond disposed) = Ok PyNone.
Proof.
  intros Hexn disposed. apply del_returns. exact Hexn.
Qed.

(** ** Construction *)

Ltac attrs :=
  cbn [host port user password ssh_client scp_client
       set_host set_port set_user set_password set_ssh_client set_scp_client].

(** Runs [__init__] symbolically, one collaborator answer at a time. *)
Ltac init_crunch :=
  unfold __init__, __log; plumbing; attrs; unfold invoke; cbn [ext self];
  repeat (first
            [ answer
            | match goal with
              | |- context [match ?v with PyRef _ => _ | _ => _ end] =>
                  is_var v; destruct v
              end ];
          plumbing; attrs).

(** A construction that returns made exactly the seven collaborator
    calls of [__init__], all of which returned, then logged twice. *)
Lemma init_success (host : string) (port : Z) (user password : string)
    (st : State W) (a : PyVal) :
  let r := __init__ respond host port user password st in
  result r = Ok a ->
  exists client policy transport chan v1 v2 v3,
    events r =
      [ECall paramiko_SSHClient (Returns (PyRef client));
       ECall (load_system_host_keys client) (Returns v1);
       ECall paramiko_AutoAddPolicy (Returns policy);
       ECall (set_missing_host_key_policy client policy) (Returns v2);
       ECall (connect client host port user password) (Returns v3);
       ECall (get_transport client) (Returns transport);
       ECall (SCPClient transport) (Returns chan);
       ELogInfo "Log source: SSHClient";
       ELogInfo (established_message host port)] /\
    self (final r) =
      mkSession (Some host) (Some port) (Some user) (Some password)
                (PyRef client) chan.
Proof.
  intros r; subst r. init_crunch; intros H; try discriminate H.
  do 7 eexists. split; reflexivity.
Qed.

(** A construction that raises logged nothing, closed nothing and left
    [scp_client] as it found it; if [connect] had returned, the connected
    client is still held in [ssh_client]; the exception is the one the
    failing collaborator raised. *)
Lemma init_failure (host : string) (port : Z) (user password : string)
    (st : State W) (e : Exn) :
  let r := __init__ respond host port user password st in
  result r = Err e ->
  existsb is_log (events r) = false /\
  existsb is_close (events r) = false /\
  scp_client (self (final r)) = scp_client (self st) /\
  (forall client h p u pw v,
      In (ECall (connect client h p u pw) (Returns v)) (events r) ->
      ssh_client (self (final r)) = PyRef client) /\
  (forall c e', In (ECall c (Raises e')) (events r) -> e' = e).
Proof.
  intros r; subst r. init_crunch; intros H; try discriminate H.
  all: injection H as <-.
  all: repeat split; try reflexivity.
  all: try (intros ? ? ? ? ? ? HIn; pick_event HIn;
            try (injection HIn as <-; reflexivity)).
  all: try (intros ? ? HIn; pick_event HIn;
            try (injection HIn as ? <-; reflexivity)).
Qed.

(** [SSHClient(...)] is [__init__] on an instance that shows the class
    attributes. *)
Lemma new_run (host : string) (port : Z) (user password : string)
    (st : State W) :
  let r := __init__ respond host port user password
             (mkState class_attributes (ext st)) in
  new_SSHClient respond host port user password st =
    match result r with
    | Ok _ => mkRun (Ok (self (final r))) (final r) (events r)
    | Err e => mkRun (Err e) (final r) (events r)
    end.
Proof.
  intros r; subst r. unfold new_SSHClient; plumbing.
  destruct (__init__ _ _ _ _ _ _) as [[a | e] st' evs]; plumbing;
    [ rewrite app_nil_r |]; reflexivity.
Qed.

(** The state in which a construction stops when [connect] returned and
    [SCPClient(...)] raised. *)
Lemma bind_failure_state (host : string) (port : Z) (user password : string)
    (st : State W) (client : addr) (h : string) (p : Z) (u pw : string)
    (v transport : PyVal) (e : Exn) :
  let r := new_SSHClient respond host port user password st in
  In (ECall (connect client h p u pw) (Returns v)) (events r) ->
  In (ECall (SCPClient transport) (Raises e)) (events r) ->
  result r = Err e /\
  existsb is_close (events r) = false /\
  ssh_client (self (final r)) = PyRef client /\
  scp_client (self (final r)) = PyNone.
Proof.
  intros r; subst r. rewrite new_run.
  pose proof (init_success host port user password
                (mkState class_attributes (ext st))) as Hok.
  pose proof (init_failure host port user password
                (mkState class_attributes (ext st))) as Herr.
  cbv zeta in Hok, Herr.
  destruct (result (__init__ _ _ _ _ _ _)) as [a | e0]; cbn [events result final].
  - intros _ Hbind.
    destruct (Hok a eq_refl) as (? & ? & ? & ? & ? & ? & ? & Hev & _).
    rewrite Hev in Hbind. pick_event Hbind.
  - intros Hconn Hbind.
    destruct (Herr e0 eq_refl) as (_ & Hclose & Hscp & Hssh & Hsame).
    rewrite (Hsame _ _ Hbind). repeat split; try assumption.
    eapply Hssh; exact Hconn.
Qed.

(** C1, as the code has it.  When [connect] has returned and
    [SCPClient(...)] raises, the construction raises that same exception
    and hands no session to the caller, but [__init__] closes nothing: the
    instance it leaves behind still holds the connected client in
    [ssh_client], with [scp_client] unset. *)
Theorem bind_failure_propagates_with_transport_open
    (host : string) (port : Z) (user password : string) (st : State W)
    (client : addr) (h : string) (p : Z) (u pw : string)
    (v transport : PyVal) (e : Exn) :
  let r := new_SSHClient respond host port user password st in
  In (ECall (connect client h p u pw) (Returns v)) (events r) ->
  In (ECall (SCPClient transport) (Raises e)) (events r) ->
  result r = Err e /\
  existsb is_close (events r) = false /\
  ssh_client (self (final r)) = PyRef client /\
  scp_client (self (final r)) = PyNone.
Proof.
  intros r Hconn Hbind. subst r.
  exact (bind_failure_state _ _ _ _ _ _ _ _ _ _ _ _ _ Hconn Hbind).
Qed.

(** C3, as the code has it.  A construction that returns has emitted
    exactly two informational log records: the first names the source of
    the log (the class), the second mentions the host and the port of the
    connection. *)
Theorem construction_logs_source_then_endpoint
    (host : string) (port : Z) (user password : string) (st : State W)
    (s : Session) :
  let r := new_SSHClient respond host port user password st in
  result r = Ok s ->
  log_records (events r)
    = ["Log source: SSHClient"; established_message host port] /\
  mentions host (established_message host port) /\
  mentions (str_of_port port) (established_message host port).
Proof.
  intros r; subst r. rewrite new_run.
  pose proof (init_success host port user password
                (mkState class_attributes (ext st))) as Hok.
  cbv zeta in Hok.
  destruct (result (__init__ _ _ _ _ _ _)) as [a | e0];
    cbn [events result final]; intros H; [| discriminate H].
  destruct (Hok a eq_refl) as (? & ? & ? & ? & ? & ? & ? & Hev & _).
  rewrite Hev. split; [reflexivity |]. split.
  - exists "Connection with ".
    exists (" host on " +:+ str_of_port port
              +:+ " port has been successfully established...").
    reflexivity.
  - exists ("Connection with " +:+ host +:+ " host on ").
    exists " port has been successfully established...".
    unfold established_message.
    rewrite !string_append_assoc. reflexivity.
Qed.

(** C6. Disposal of the instance that a failed construction leaves behind
    ([connect] returned, [SCPClient(...)] raised, so [scp_client] is still
    [None]) returns normally, and the one collaborator call it makes is the
    [close] of the connected client; the failure to close a channel that was
    never bound is logged and goes no further. *)
Theorem disposal_after_failed_construction
    (host : string) (port : Z) (user password : string) (st : State W)
    (client : addr) (h : string) (p : Z) (u pw : string)
    (v transport : PyVal) (e : Exn) :
  close_errors_are_Exceptions respond ->
  let r := new_SSHClient respond host port user password st in
  In (ECall (connect client h p u pw) (Returns v)) (events r) ->
  In (ECall (SCPClient transport) (Raises e)) (events r) ->
  let d := __del__ respond (final r) in
  scp_client (self (final r)) = PyNone /\
  result d = Ok PyNone /\
  existsb (is_close_of client) (events d) = true /\
  exists o,
    events d =
      [ECall (close client) o;
       ELogInfo "Log source: SSHClient";
       ELogInfo (match o with
                 | Returns _ => "'NoneType' object has no attribute 'close'"
                 | Raises e' => exn_str e'
                 end)].
Proof.
  intros Hexn r Hconn Hbind d. subst d.
  destruct (bind_failure_state _ _ _ _ _ _ _ _ _ _ _ _ _ Hconn Hbind)
    as (_ & _ & Hssh & Hscp).
  fold r in Hssh, Hscp.
  split; [exact Hscp |]. split; [apply del_returns; exact Hexn |].
  generalize dependent (final r). intros st' Hssh Hscp.
  unfold __del__, try_except_Exception, __log; plumbing.
  rewrite Hssh; plumbing. unfold invoke. answer; plumbing.
  - rewrite Hscp; plumbing. cbn [isinstance_Exception exn_class]; plumbing.
    cbn [existsb is_close_of]. rewrite Nat.eqb_refl.
    split; [reflexivity | exists (Returns v0); reflexivity].
  - rewrite (Hexn _ _ _ _ E); plumbing.
    cbn [existsb is_close_of]. rewrite Nat.eqb_refl.
    split; [reflexivity | exists (Raises e0); reflexivity].
Qed.

(** Outside the classes disposal is specified for: an exception that is
    not an instance of [Exception] passes through [__del__]. *)
Lemma del_lets_interrupts_through (st : State W) (client : addr) (w : W)
    (e : Exn) :
  ssh_client (self st) = PyRef client ->
  respond (close client) (ext st) = (Raises e, w) ->
  isinstance_Exception e = false ->
  result (__del__ respond st) = Err e.
Proof.
  intros Hssh E Hbase. unfold __del__, try_except_Exception, __log; plumbing.
  rewrite Hssh; plumbing. unfold invoke. rewrite E; plumbing.
  rewrite Hbase. reflexivity.
Qed.

(** ** Round trip through a faithful copy channel *)

(** C9. Over a copy channel that stores what it is given, [put] of a local
    file (or, with [recursive] set, of a directory tree) to a remote path
    followed by [get] of that remote path leaves, at the local destination,
    the very tree that was sent. *)
Theorem put_then_get_round_trip
    (local_fs remote_fs : W -> string -> option Tree)
    (st : State W) (chan : addr)
    (local_path remote_path destination : string) (recursive : bool)
    (t : Tree) :
  FaithfulChannel respond local_fs remote_fs ->
  scp_client (self st) = PyRef chan ->
  local_fs (ext st) local_path = Some t ->
  transferable recursive t = true ->
  let sent := put respond (OnePath local_path) remote_path recursive st in
  let fetched := get respond remote_path destination recursive (final sent) in
  result sent = Ok PyNone /\
  result fetched = Ok PyNone /\
  local_fs (ext (final fetched)) destination = Some t.
Proof.
  intros [Hup Hdown] Hscp Hlocal Hok sent fetched. subst fetched sent.
  destruct (Hup chan local_path remote_path recursive (ext st) t Hlocal Hok)
    as (v1 & w1 & E1 & Hremote).
  destruct (Hdown chan remote_path destination recursive w1 t Hremote Hok)
    as (v2 & w2 & E2 & Hback).
  unfold put at 1 2 3. plumbing. rewrite Hscp; plumbing.
  unfold invoke. rewrite E1; plumbing.
  unfold get; plumbing. rewrite Hscp; plumbing.
  unfold invoke; cbn [ext]. rewrite E2; plumbing.
  repeat split; try reflexivity. exact Hback.
Qed.

(** ** More on construction *)

(** The collaborator calls and log records of [SSHClient(...)] are those
    of [__init__] on a new instance. *)
Lemma new_events (host : string) (port : Z) (user password : string)
    (st : State W) :
  events (new_SSHClient respond host port user password st)
    = events (__init__ respond host port user password
                (mkState class_attributes (ext st))) /\
  final (new_SSHClient respond host port user password st)
    = final (__init__ respond host port user password
               (mkState class_attributes (ext st))).
Proof.
  rewrite new_run. cbv zeta.
  destruct (result (__init__ _ _ _ _ _ _)); split; reflexivity.
Qed.

(** X1. A successful construction is one fixed sequence of collaborator calls:
    create the client, load the system host keys, create and install the
    auto-add host key policy, connect with the credentials as given, take
    the client's transport, bind the copy channel to that transport; then
    the two log records.  The session handed to the caller stores the
    credentials, the client and the channel. *)
Theorem construction_call_sequence
    (host : string) (port : Z) (user password : string) (st : State W)
    (s : Session) :
  let r := new_SSHClient respond host port user password st in
  result r = Ok s ->
  exists client policy transport chan v1 v2 v3,
    events r =
      [ECall paramiko_SSHClient (Returns (PyRef client));
       ECall (load_system_host_keys client) (Returns v1);
       ECall paramiko_AutoAddPolicy (Returns policy);
       ECall (set_missing_host_key_policy client policy) (Returns v2);
       ECall (connect client host port user password) (Returns v3);
       ECall (get_transport client) (Returns transport);
       ECall (SCPClient transport) (Returns chan);
       ELogInfo "Log source: SSHClient";
       ELogInfo (established_message host port)] /\
    s = mkSession (Some host) (Some port) (Some user) (Some password)
                  (PyRef client) chan /\
    self (final r) = s.
Proof.
  intros r; subst r. rewrite new_run.
  pose proof (init_success host port user password
                (mkState class_attributes (ext st))) as Hok.
  cbv zeta in Hok.
  destruct (result (__init__ _ _ _ _ _ _)) as [a | e0];
    cbn [events result final]; intros H; [| discriminate H].
  destruct (Hok a eq_refl)
    as (client & policy & transport & chan & v1 & v2 & v3 & Hev & Hself).
  injection H as <-.
  exists client, policy, transport, chan, v1, v2, v3.
  repeat split; assumption.
Qed.

(** What [__init__] leaves behind when it raises: the four credentials are
    already stored, and a collaborator call that raised is the last event
    of the run. *)
Lemma init_failure_shape (host : string) (port : Z) (user password : string)
    (st : State W) (e : Exn) :
  let r := __init__ respond host port user password st in
  result r = Err e ->
  stores_credentials (self (final r)) host port user password /\
  (forall c e',
      In (ECall c (Raises e')) (events r) ->
      exists before, events r = (before ++ [ECall c (Raises e')])%list).
Proof.
  intros r; subst r. unfold stores_credentials.
  init_crunch; intros H; try discriminate H.
  all: split; [repeat split; reflexivity |].
  all: intros c e' HIn; pick_event HIn.
  all: injection HIn as <- <-.
  all: match goal with
       | |- exists before, ?l = _ => exists (removelast l); reflexivity
       end.
Qed.

(** X2. A construction that raises has stopped at the failing call: the call
    that raised is the last event, its exception is the one the caller
    sees, and no log record was emitted.  The abandoned instance already
    stores the four credentials, and its [scp_client] is unset. *)
Theorem construction_stops_at_first_failure
    (host : string) (port : Z) (user password : string) (st : State W)
    (e : Exn) :
  let r := new_SSHClient respond host port user password st in
  result r = Err e ->
  log_records (events r) = [] /\
  stores_credentials (self (final r)) host port user password /\
  scp_client (self (final r)) = PyNone /\
  (forall c e',
      In (ECall c (Raises e')) (events r) ->
      e' = e /\
      exists before, events r = (before ++ [ECall c (Raises e')])%list).
Proof.
  intros r; subst r.
  destruct (new_events host port user password st) as [-> ->].
  rewrite new_run. cbv zeta.
  pose proof (init_failure host port user password
                (mkState class_attributes (ext st))) as Herr.
  pose proof (init_failure_shape host port user password
                (mkState class_attributes (ext st))) as Hshape.
  cbv zeta in Herr, Hshape.
  destruct (result (__init__ _ _ _ _ _ _)) as [a | e0];
    cbn [result]; intros H; [discriminate H |].
  injection H as <-.
  destruct (Herr e0 eq_refl) as (Hlog & _ & Hscp & _ & Hsame).
  destruct (Hshape e0 eq_refl) as (Hcred & Hlast).
  split; [| split; [exact Hcred | split; [exact Hscp |]]].
  - revert Hlog. generalize (events (__init__ respond host port user password
                                       (mkState class_attributes (ext st)))).
    intros evs. induction evs as [| [c o | m] evs IH]; cbn; intros Hlog.
    + reflexivity.
    + exact (IH Hlog).
    + discriminate Hlog.
  - intros c e' HIn. split; [exact (Hsame _ _ HIn) | exact (Hlast _ _ HIn)].
Qed.

(** X3. [connect] is never reached without the host key setup: whenever a
    construction calls [connect], it is with the credentials as given, on
    the client it created, after loading the system host keys and
    installing the auto-add policy on that same client. *)
Theorem connect_follows_host_key_setup
    (host : string) (port : Z) (user password : string) (st : State W)
    (client : addr) (h : string) (p : Z) (u pw : string) (o : Outcome) :
  let r := new_SSHClient respond host port user password st in
  In (ECall (connect client h p u pw) o) (events r) ->
  (h, p, u, pw) = (host, port, user, password) /\
  exists policy v1 v2 rest,
    events r =
      ECall paramiko_SSHClient (Returns (PyRef client))
      :: ECall (load_system_host_keys client) (Returns v1)
      :: ECall paramiko_AutoAddPolicy (Returns policy)
      :: ECall (set_missing_host_key_policy client policy) (Returns v2)
      :: ECall (connect client host port user password) o
      :: rest.
Proof.
  intros r; subst r.
  destruct (new_events host port user password st) as [-> _].
  generalize (mkState class_attributes (ext st)). intros st0.
  init_crunch; intros HIn; pick_event HIn.
  all: injection HIn as <- <- <- <- <- <-.
  all: split; [reflexivity | do 4 eexists; reflexivity].
Qed.

(** ** More on disposal *)

(** X4. When closing the transport raises, disposal goes straight to the
    handler: the copy channel is not closed and the closure message is not
    logged.  An instance of [Exception] is logged and swallowed; any other
    exception leaves [__del__] with nothing logged. *)
Theorem disposal_when_transport_close_raises
    (st : State W) (client : addr) (e : Exn) (w : W) :
  ssh_client (self st) = PyRef client ->
  respond (close client) (ext st) = (Raises e, w) ->
  __del__ respond st =
    if isinstance_Exception e then
      mkRun (Ok PyNone) (mkState (self st) w)
            [ECall (close client) (Raises e);
             ELogInfo "Log source: SSHClient";
             ELogInfo (exn_str e)]
    else
      mkRun (Err e) (mkState (self st) w) [ECall (close client) (Raises e)].
Proof.
  intros Hssh E. unfold __del__, try_except_Exception, __log; plumbing.
  rewrite Hssh; plumbing. unfold invoke. rewrite E; plumbing.
  destruct (isinstance_Exception e); reflexivity.
Qed.

(** X5. Disposal of an instance whose [ssh_client] is unset (no client was
    ever created) calls no collaborator at all, not even [close] on a copy
    channel the instance may hold: the [AttributeError] of [None.close()] is
    logged and disposal returns. *)
Theorem disposal_without_client (st : State W) :
  ssh_client (self st) = PyNone ->
  __del__ respond st =
    mkRun (Ok PyNone) st
          [ELogInfo "Log source: SSHClient";
           ELogInfo "'NoneType' object has no attribute 'close'"].
Proof.
  intros Hssh. unfold __del__, try_except_Exception, __log; plumbing.
  rewrite Hssh; plumbing. destruct st; reflexivity.
Qed.

(** [__del__] assigns no attribute. *)
Lemma del_self (st : State W) :
  self (final (__del__ respond st)) = self st.
Proof.
  unfold __del__, try_except_Exception, __log; plumbing.
  destruct (ssh_client (self st)); plumbing; try reflexivity.
  unfold invoke; answer; plumbing.
  - destruct (scp_client (self st)); plumbing; try reflexivity.
    unfold invoke; cbn [ext]; answer; plumbing; try reflexivity.
    destruct (isinstance_Exception e); reflexivity.
  - destruct (isinstance_Exception e); reflexivity.
Qed.

(** X6. Disposal does not mark the session as disposed: every attribute is as
    before, so [get], [put] and [execute] on a disposed session still go to
    the same copy channel and the same client. *)
Theorem disposed_session_still_delegates (st : State W) :
  let disposed := final (__del__ respond st) in
  self disposed = self st /\
  (forall client command timeout,
      ssh_client (self st) = PyRef client ->
      let c := exec_command client command timeout in
      events (execute respond command timeout disposed)
        = [ECall c (fst (respond c (ext disposed)))]) /\
  (forall chan remote_path local_path recursive,
      scp_client (self st) = PyRef chan ->
      let c := scp_get chan remote_path local_path recursive in
      events (get respond remote_path local_path recursive disposed)
        = [ECall c (fst (respond c (ext disposed)))]) /\
  (forall chan local_paths remote_path recursive,
      scp_client (self st) = PyRef chan ->
      let c := scp_put chan local_paths remote_path recursive in
      events (put respond local_paths remote_path recursive disposed)
        = [ECall c (fst (respond c (ext disposed)))]).
Proof.
  intros disposed. pose proof (del_self st) as Hself. fold disposed in Hself.
  split; [exact Hself |]. repeat split; intros.
  all: subst c; unfold execute, get, put; plumbing; rewrite Hself.
  all: match goal with H : _ = PyRef _ |- _ => rewrite H end; plumbing.
  all: rewrite invoke_run; cbn [result final events self ext].
  all: match goal with
       | |- context [fst (respond ?c ?w)] => destruct (fst (respond c w))
       end; reflexivity.
Qed.

(** X7. Disposal calls nothing but [close], on the objects held in
    [ssh_client] and [scp_client], and makes at most two calls. *)
Theorem disposal_only_closes (st : State W) :
  let d := __del__ respond st in
  (forall c o,
      In (ECall c o) (events d) ->
      exists a, c = close a /\
                (ssh_client (self st) = PyRef a \/ scp_client (self st) = PyRef a)) /\
  length (List.filter (fun ev => negb (is_log ev)) (events d)) <= 2.
Proof.
  intros d; subst d.
  unfold __del__, try_except_Exception, __log; plumbing.
  destruct (ssh_client (self st)) as [| | a |] eqn:Hssh; plumbing;
    try solve [split; [intros c o HIn; pick_event HIn | cbn; repeat constructor]].
  unfold invoke; answer; plumbing.
  - destruct (scp_client (self st)) as [| | b |] eqn:Hscp; plumbing;
      try solve [split; [intros c o HIn; pick_event HIn; injection HIn as <- <-;
                         exists a; split; [reflexivity | left; reflexivity]
                        | cbn; repeat constructor]].
    unfold invoke; cbn [ext]; answer; plumbing.
    + split; [| cbn; repeat constructor].
      intros c o HIn; pick_event HIn; injection HIn as <- <-.
      * exists a; split; [reflexivity | left; reflexivity].
      * exists b; split; [reflexivity | right; reflexivity].
    + destruct (isinstance_Exception e); plumbing;
        (split; [| cbn; repeat constructor]).
      all: intros c o HIn; pick_event HIn; injection HIn as <- <-.
      all: first [ exists a; split; [reflexivity | left; reflexivity]
                 | exists b; split; [reflexivity | right; reflexivity] ].
  - destruct (isinstance_Exception e); plumbing;
      (split; [| cbn; repeat constructor]).
    all: intros c o HIn; pick_event HIn; injection HIn as <- <-.
    all: exists a; split; [reflexivity | left; reflexivity].
Qed.

(** X8. A disposal that returns has emitted exactly two log records, the first
    naming the source; a disposal that raises has emitted none. *)
Theorem disposal_log_shape (st : State W) :
  let d := __del__ respond st in
  (result d = Ok PyNone ->
   exists msg, log_records (events d) = ["Log source: SSHClient"; msg]) /\
  (forall e, result d = Err e -> log_records (events d) = []).
Proof.
  intros d; subst d.
  unfold __del__, try_except_Exception, __log; plumbing.
  destruct (ssh_client (self st)); plumbing;
    try solve [split; [intros _; eexists; reflexivity
                      | intros ? H; discriminate H]].
  unfold invoke; answer; plumbing.
  - destruct (scp_client (self st)); plumbing;
      try solve [split; [intros _; eexists; reflexivity
                      | intros ? H; discriminate H]].
    unfold invoke; cbn [ext]; answer; plumbing.
    + split; [intros _; eexists; reflexivity | intros ? H; discriminate H].
    + destruct (isinstance_Exception e); plumbing.
      * split; [intros _; eexists; reflexivity | intros ? H; discriminate H].
      * split; [intros H; discriminate H | intros ? _; reflexivity].
  - destruct (isinstance_Exception e); plumbing.
    + split; [intros _; eexists; reflexivity | intros ? H; discriminate H].
    + split; [intros H; discriminate H | intros ? _; reflexivity].
Qed.

(** ** Operations without a collaborator *)

(** X9. On an instance whose [scp_client] is unset, [get] and [put] raise
    [AttributeError] before any collaborator is called; likewise [execute]
    when [ssh_client] is unset.  Nothing is logged and nothing changes. *)
Theorem operations_without_collaborator (st : State W) :
  (scp_client (self st) = PyNone ->
   (forall remote_path local_path recursive,
       get respond remote_path local_path recursive st =
         mkRun (Err (mkExn AttributeError
                       "'NoneType' object has no attribute 'get'")) st []) /\
   (forall local_paths remote_path recursive,
       put respond local_paths remote_path recursive st =
         mkRun (Err (mkExn AttributeError
                       "'NoneType' object has no attribute 'put'")) st [])) /\
  (ssh_client (self st) = PyNone ->
   forall command timeout,
     execute respond command timeout st =
       mkRun (Err (mkExn AttributeError
                     "'NoneType' object has no attribute 'exec_command'")) st []).
Proof.
  split; [intros Hscp; split | intros Hssh]; intros.
  all: unfold get, put, execute; plumbing; rewrite ?Hscp, ?Hssh; plumbing.
  all: reflexivity.
Qed.

(** ** Construction followed by disposal *)

(** X10. What construction opened, disposal closes: for a session that
    [SSHClient(...)] returned, [__del__] closes the client that
    [paramiko.SSHClient()] created and then the channel that
    [SCPClient(...)] created, and, both closes returning, logs the closure
    of the connection to the host given at construction. *)
Theorem disposal_closes_what_construction_opened
    (host : string) (port : Z) (user password : string) (st : State W)
    (s : Session) (client chan : addr) (transport v v' : PyVal) (w w' : W) :
  let r := new_SSHClient respond host port user password st in
  result r = Ok s ->
  In (ECall paramiko_SSHClient (Returns (PyRef client))) (events r) ->
  In (ECall (SCPClient transport) (Returns (PyRef chan))) (events r) ->
  respond (close client) (ext (final r)) = (Returns v, w) ->
  respond (close chan) w = (Returns v', w') ->
  events (__del__ respond (final r)) =
    [ECall (close client) (Returns v);
     ECall (close chan) (Returns v');
     ELogInfo "Log source: SSHClient";
     ELogInfo ("Connection with " +:+ host +:+ " host has been closed...")].
Proof.
  intros r; subst r.
  destruct (new_events host port user password st) as [-> ->].
  rewrite new_run. cbv zeta.
  pose proof (init_success host port user password
                (mkState class_attributes (ext st))) as Hok.
  cbv zeta in Hok.
  destruct (result (__init__ _ _ _ _ _ _)) as [a | e0];
    cbn [result]; intros H; [| discriminate H].
  destruct (Hok a eq_refl) as (? & ? & ? & ? & ? & ? & ? & Hev & Hself).
  rewrite Hev. intros Hnew Hbind.
  pick_event Hnew. injection Hnew as <-.
  pick_event Hbind. injection Hbind as <- ->.
  revert Hself.
  generalize (final (__init__ respond host port user password
                       (mkState class_attributes (ext st)))).
  intros st' Hself E E'.
  unfold __del__, try_except_Exception, __log; plumbing.
  rewrite Hself; attrs; plumbing. unfold invoke. rewrite E; plumbing.
  rewrite Hself; attrs; plumbing. rewrite E'; plumbing.
  rewrite ?Hself; attrs. reflexivity.
Qed.

(** On a new instance, a client held in [ssh_client] after [__init__] is
    the one [paramiko.SSHClient()] returned. *)
Lemma init_client_provenance (host : string) (port : Z)
    (user password : string) (w : W) (a : addr) :
  let r := __init__ respond host port user password
             (mkState class_attributes w) in
  ssh_client (self (final r)) = PyRef a ->
  In (ECall paramiko_SSHClient (Returns (PyRef a))) (events r).
Proof.
  intros r; subst r. unfold class_attributes.
  init_crunch; intros H; try discriminate H.
  all: injection H as <-; left; reflexivity.
Qed.

(** X11. Disposal after a construction that failed at any step returns
    normally and closes at most one object: the client that
    [paramiko.SSHClient()] had created, if it had.  No copy channel is
    closed, since none was stored. *)
Theorem disposal_after_any_failed_construction
    (host : string) (port : Z) (user password : string) (st : State W)
    (e : Exn) :
  close_errors_are_Exceptions respond ->
  let r := new_SSHClient respond host port user password st in
  result r = Err e ->
  let d := __del__ respond (final r) in
  result d = Ok PyNone /\
  (forall c o,
      In (ECall c o) (events d) ->
      exists client,
        c = close client /\
        In (ECall paramiko_SSHClient (Returns (PyRef client))) (events r)) /\
  length (List.filter (fun ev => negb (is_log ev)) (events d)) <= 1.
Proof.
  intros Hexn r Hres d. subst d.
  split; [apply del_returns; exact Hexn |].
  assert (Hscp : scp_client (self (final r)) = PyNone).
  { subst r. revert Hres.
    destruct (new_events host port user password st) as [_ ->].
    rewrite new_run. cbv zeta.
    pose proof (init_failure host port user password
                  (mkState class_attributes (ext st))) as Herr.
    cbv zeta in Herr.
    destruct (result (__init__ _ _ _ _ _ _)) as [a | e0];
      cbn [result]; intros H; [discriminate H |].
    destruct (Herr e0 eq_refl) as (_ & _ & Hscp & _). exact Hscp. }
  assert (Hclient : forall a,
             ssh_client (self (final r)) = PyRef a ->
             In (ECall paramiko_SSHClient (Returns (PyRef a))) (events r)).
  { subst r. destruct (new_events host port user password st) as [-> ->].
    intros a. apply init_client_provenance. }
  clear Hres. revert Hscp Hclient.
  generalize (events r). generalize (final r). clear r.
  intros st' evs Hscp Hclient.
  unfold __del__, try_except_Exception, __log; plumbing.
  destruct (ssh_client (self st')) as [| | a |] eqn:Hssh; plumbing;
    try solve [split; [intros c o HIn; pick_event HIn | cbn; repeat constructor]].
  unfold invoke; answer; plumbing.
  - rewrite Hscp; plumbing. cbn [isinstance_Exception exn_class]; plumbing.
    split; [| cbn; repeat constructor].
    intros c o HIn; pick_event HIn; injection HIn as <- <-.
    exists a; split; [reflexivity | exact (Hclient a eq_refl)].
  - rewrite (Hexn _ _ _ _ E); plumbing.
    split; [| cbn; repeat constructor].
    intros c o HIn; pick_event HIn; injection HIn as <- <-.
    exists a; split; [reflexivity | exact (Hclient a eq_refl)].
Qed.

(** X12. [get], [put] and [execute] emit no log record and make at most one
    collaborator call, whatever the session holds and whatever the
    collaborator answers. *)
Theorem operations_are_silent (st : State W) :
  (forall remote_path local_path recursive,
      let r := get respond remote_path local_path recursive st in
      log_records (events r) = [] /\ length (events r) <= 1) /\
  (forall local_paths remote_path recursive,
      let r := put respond local_paths remote_path recursive st in
      log_records (events r) = [] /\ length (events r) <= 1) /\
  (forall command timeout,
      let r := execute respond command timeout st in
      log_records (events r) = [] /\ length (events r) <= 1).
Proof.
  repeat split; intros.
  all: cbv zeta; unfold get, put, execute; plumbing.
  all: match goal with
       | |- context [match ?v with PyRef _ => _ | _ => _ end] => destruct v
       end; plumbing; try solve [reflexivity | cbn; repeat constructor].
  all: unfold invoke; answer; plumbing;
         solve [reflexivity | cbn; repeat constructor].
Qed.

End Wrapper.

(** * The doubles at work *)

Lemma double_close_errors (fails : Call -> option Exn) :
  (forall c e, fails c = Some e -> isinstance_Exception e = true) ->
  close_errors_are_Exceptions (double fails).
Proof.
  intros Hfails a w w' e. unfold double.
  destruct (fails (close a)) as [e0 |] eqn:E; intros H.
  - injection H as <- _. exact (Hfails _ _ E).
  - discriminate H.
Qed.

Lemma close_fails_Exceptions (c : Call) (e : Exn) :
  close_fails c = Some e -> isinstance_Exception e = true.
Proof.
  destruct c; cbn; intros H; try discriminate H.
  injection H as <-. reflexivity.
Qed.

Lemma bind_fails_Exceptions (c : Call) (e : Exn) :
  bind_fails c = Some e -> isinstance_Exception e = true.
Proof.
  destruct c; cbn; intros H; try discriminate H.
  injection H as <-. reflexivity.
Qed.

Lemma disk_double_faithful :
  FaithfulChannel disk_double disk_local disk_remote.
Proof.
  split; intros chan a b recursive d t Hsrc Hok;
    unfold disk_local, disk_remote in *; cbn [disk_double]; unfold copy_tree;
    rewrite Hsrc, Hok; do 2 eexists; (split; [reflexivity |]);
    cbn [local_disk remote_disk]; apply lookup_insert_eq.
Qed.

(** ** Where the code departs from the specification *)

(** C1 fails on the code: with a double whose [SCPClient(...)] raises after
    [connect] returned, the construction raises without any [close]. *)
Lemma transport_left_open_on_bind_failure :
  ~ transport_closed_on_bind_failure (double bind_fails)
      "example.org" 22 "root" "root" fresh.
Proof.
  intros H.
  specialize (H 1 "example.org" 22%Z "root" "root" PyNone (PyRef 3)
                (mkExn SCPException "cannot open channel")).
  assert (Hclosed : existsb (is_close_of 1)
            (events (new_SSHClient (double bind_fails)
                       "example.org" 22 "root" "root" fresh)) = true).
  { apply H; vm_compute.
    - do 4 right; left; reflexivity.
    - do 6 right; left; reflexivity. }
  vm_compute in Hclosed. discriminate Hclosed.
Qed.

(** C2 fails on the code: disposal of a connected session closes the
    transport (object 1) before the copy channel (object 4). *)
Lemma transport_closed_before_channel :
  ~ channel_closed_before_transport (double never_fails) connected.
Proof.
  intros H. specialize (H 1 4 eq_refl eq_refl).
  vm_compute in H. discriminate H.
Qed.

(** C3 fails on the code: a successful construction emits two records. *)
Lemma two_log_records_on_success :
  ~ one_log_record_on_success (double never_fails)
      "example.org" 22 "root" "root" fresh.
Proof.
  intros H. specialize (H (self connected) eq_refl).
  vm_compute in H. discriminate H.
Qed.

(** ** The theorems at concrete inputs *)

Lemma delegation_once_and_unchanged_witness :
  scp_client (self connected) = PyRef 4 /\
  ssh_client (self connected) = PyRef 1 /\
  events (get (double never_fails) "/etc/motd" "." false connected)
    = [ECall (scp_get 4 "/etc/motd" "." false) (Returns PyNone)].
Proof.
  split; [reflexivity |]. split; [reflexivity |].
  exact (proj1 (proj1 (delegation_once_and_unchanged
                         (double never_fails) connected 4 1 eq_refl eq_refl)
                      "/etc/motd" "." false)).
Defined.

Lemma execute_returns_three_handles_witness :
  ssh_client (self connected) = PyRef 1 /\
  result (execute (double never_fails) "uname -a" (PyInt 5) connected)
    = Ok (PyTuple [PyRef 5; PyRef 6; PyRef 7]).
Proof.
  split; [reflexivity |].
  rewrite (execute_returns_three_handles (double never_fails) connected 1
             "uname -a" (PyInt 5) (PyRef 5) (PyRef 6) (PyRef 7) 8
             eq_refl eq_refl).
  reflexivity.
Defined.

Lemma disposal_closes_transport_then_channel_witness :
  ssh_client (self connected) = PyRef 1 /\
  scp_client (self connected) = PyRef 4 /\
  closed_before 1 4 (events (__del__ (double never_fails) connected)) = true.
Proof.
  split; [reflexivity |]. split; [reflexivity |].
  exact (proj2 (proj2 (proj2 (disposal_closes_transport_then_channel
                                (double never_fails) connected 1 4
                                eq_refl eq_refl))
                      PyNone 5 PyNone 5 eq_refl eq_refl)).
Defined.

Lemma disposal_never_raises_witness :
  close_errors_are_Exceptions (double close_fails) /\
  result (__del__ (double close_fails) connected) = Ok PyNone.
Proof.
  split; [exact (double_close_errors close_fails close_fails_Exceptions) |].
  exact (proj1 (disposal_never_raises (double close_fails) connected
                  (double_close_errors close_fails close_fails_Exceptions))).
Defined.

Lemma disposal_twice_never_raises_witness :
  close_errors_are_Exceptions (double close_fails) /\
  result (__del__ (double close_fails)
            (final (__del__ (double close_fails) connected))) = Ok PyNone.
Proof.
  split; [exact (double_close_errors close_fails close_fails_Exceptions) |].
  exact (disposal_twice_never_raises (double close_fails) connected
           (double_close_errors close_fails close_fails_Exceptions)).
Defined.

Lemma bind_failure_propagates_with_transport_open_witness :
  In (ECall (connect 1 "example.org" 22 "root" "root") (Returns PyNone))
     (events half_built_run) /\
  In (ECall (SCPClient (PyRef 3))
            (Raises (mkExn SCPException "cannot open channel")))
     (events half_built_run) /\
  result half_built_run = Err (mkExn SCPException "cannot open channel") /\
  existsb is_close (events half_built_run) = false.
Proof.
  set (r := half_built_run).
  assert (Hconn : In (ECall (connect 1 "example.org" 22 "root" "root")
                            (Returns PyNone)) (events r)).
  { vm_compute. do 4 right; left; reflexivity. }
  assert (Hbind : In (ECall (SCPClient (PyRef 3))
                            (Raises (mkExn SCPException "cannot open channel")))
                     (events r)).
  { vm_compute. do 6 right; left; reflexivity. }
  split; [exact Hconn |]. split; [exact Hbind |].
  pose proof (bind_failure_propagates_with_transport_open (double bind_fails)
                "example.org" 22 "root" "root" fresh
                1 "example.org" 22 "root" "root" PyNone (PyRef 3)
                (mkExn SCPException "cannot open channel") Hconn Hbind)
    as (Hres & Hopen & _).
  split; [exact Hres | exact Hopen].
Defined.

Lemma construction_logs_source_then_endpoint_witness :
  result connected_run = Ok (self connected) /\
  log_records (events connected_run)
    = ["Log source: SSHClient"; established_message "example.org" 22].
Proof.
  split; [reflexivity |].
  exact (proj1 (construction_logs_source_then_endpoint (double never_fails)
                  "example.org" 22 "root" "root" fresh (self connected)
                  eq_refl)).
Defined.

Lemma disposal_after_failed_construction_witness :
  close_errors_are_Exceptions (double bind_fails) /\
  In (ECall (connect 1 "example.org" 22 "root" "root") (Returns PyNone))
     (events half_built_run) /\
  In (ECall (SCPClient (PyRef 3))
            (Raises (mkExn SCPException "cannot open channel")))
     (events half_built_run) /\
  result (__del__ (double bind_fails) (final half_built_run)) = Ok PyNone /\
  existsb (is_close_of 1)
          (events (__del__ (double bind_fails) (final half_built_run)))
    = true.
Proof.
  set (r := half_built_run).
  assert (Hconn : In (ECall (connect 1 "example.org" 22 "root" "root")
                            (Returns PyNone)) (events r)).
  { vm_compute. do 4 right; left; reflexivity. }
  assert (Hbind : In (ECall (SCPClient (PyRef 3))
                            (Raises (mkExn SCPException "cannot open channel")))
                     (events r)).
  { vm_compute. do 6 right; left; reflexivity. }
  split; [exact (double_close_errors bind_fails bind_fails_Exceptions) |].
  split; [exact Hconn |]. split; [exact Hbind |].
  pose proof (disposal_after_failed_construction (double bind_fails)
                "example.org" 22 "root" "root" fresh
                1 "example.org" 22 "root" "root" PyNone (PyRef 3)
                (mkExn SCPException "cannot open channel")
                (double_close_errors bind_fails bind_fails_Exceptions)
                Hconn Hbind)
    as (_ & Hres & Hclosed & _).
  split; [exact Hres | exact Hclosed].
Defined.

Lemma put_then_get_round_trip_witness :
  FaithfulChannel disk_double disk_local disk_remote /\
  scp_client (self workstation) = PyRef 4 /\
  disk_local (ext workstation) "site" = Some site /\
  transferable true site = true /\
  disk_local (ext (final site_fetched)) "restored" = Some site.
Proof.
  assert (Hlocal : disk_local (ext workstation) "site" = Some site).
  { vm_compute. reflexivity. }
  split; [exact disk_double_faithful |]. split; [reflexivity |].
  split; [exact Hlocal |]. split; [reflexivity |].
  exact (proj2 (proj2 (put_then_get_round_trip disk_double
                         disk_local disk_remote workstation 4
                         "site" "/srv/site" "restored" true site
                         disk_double_faithful eq_refl Hlocal eq_refl))).
Defined.

(** The same channel refuses a directory when [recursive] is not set, and
    the wrapper passes the refusal on. *)
Example put_directory_without_recursive :
  result (put disk_double (OnePath "site") "/srv/site" false workstation)
    = Err not_a_regular_file.
Proof. vm_compute. reflexivity. Qed.

(** A single file makes the round trip without [recursive]. *)
Example notes_round_trip :
  let sent := put disk_double (OnePath "notes.txt") "/tmp/n" false workstation in
  let fetched := get disk_double "/tmp/n" "copy.txt" false (final sent) in
  disk_local (ext (final fetched)) "copy.txt" = Some notes.
Proof. vm_compute. reflexivity. Qed.

(** ** The further properties at concrete inputs *)

Lemma construction_call_sequence_witness :
  result connected_run = Ok (self connected) /\
  exists client policy transport chan v1 v2 v3,
    events connected_run =
      [ECall paramiko_SSHClient (Returns (PyRef client));
       ECall (load_system_host_keys client) (Returns v1);
       ECall paramiko_AutoAddPolicy (Returns policy);
       ECall (set_missing_host_key_policy client policy) (Returns v2);
       ECall (connect client "example.org" 22 "root" "root") (Returns v3);
       ECall (get_transport client) (Returns transport);
       ECall (SCPClient transport) (Returns chan);
       ELogInfo "Log source: SSHClient";
       ELogInfo (established_message "example.org" 22)] /\
    self connected =
      mkSession (Some "example.org") (Some 22%Z) (Some "root") (Some "root")
                (PyRef client) chan /\
    self (final connected_run) = self connected.
Proof.
  split; [reflexivity |].
  exact (construction_call_sequence (double never_fails)
           "example.org" 22 "root" "root" fresh (self connected) eq_refl).
Defined.

Lemma construction_stops_at_first_failure_witness :
  result half_built_run = Err (mkExn SCPException "cannot open channel") /\
  log_records (events half_built_run) = [] /\
  scp_client (self (final half_built_run)) = PyNone.
Proof.
  split; [reflexivity |].
  pose proof (construction_stops_at_first_failure (double bind_fails)
                "example.org" 22 "root" "root" fresh
                (mkExn SCPException "cannot open channel") eq_refl)
    as (Hlog & _ & Hscp & _).
  split; [exact Hlog | exact Hscp].
Defined.

Lemma connect_follows_host_key_setup_witness :
  In (ECall (connect 1 "example.org" 22 "root" "root") (Returns PyNone))
     (events connected_run) /\
  exists policy v1 v2 rest,
    events connected_run =
      ECall paramiko_SSHClient (Returns (PyRef 1))
      :: ECall (load_system_host_keys 1) (Returns v1)
      :: ECall paramiko_AutoAddPolicy (Returns policy)
      :: ECall (set_missing_host_key_policy 1 policy) (Returns v2)
      :: ECall (connect 1 "example.org" 22 "root" "root") (Returns PyNone)
      :: rest.
Proof.
  assert (Hconn : In (ECall (connect 1 "example.org" 22 "root" "root")
                            (Returns PyNone)) (events connected_run)).
  { vm_compute. do 4 right; left; reflexivity. }
  split; [exact Hconn |].
  exact (proj2 (connect_follows_host_key_setup (double never_fails)
                  "example.org" 22 "root" "root" fresh
                  1 "example.org" 22 "root" "root" (Returns PyNone) Hconn)).
Defined.

Lemma disposal_when_transport_close_raises_witness :
  ssh_client (self connected) = PyRef 1 /\
  double close_fails (close 1) (ext connected)
    = (Raises (mkExn SSHException "socket is closed"), 5) /\
  __del__ (double close_fails) connected =
    mkRun (Ok PyNone) (mkState (self connected) 5)
          [ECall (close 1) (Raises (mkExn SSHException "socket is closed"));
           ELogInfo "Log source: SSHClient";
           ELogInfo "socket is closed"].
Proof.
  split; [reflexivity |]. split; [reflexivity |].
  exact (disposal_when_transport_close_raises (double close_fails) connected
           1 (mkExn SSHException "socket is closed") 5 eq_refl eq_refl).
Defined.

Lemma disposal_without_client_witness :
  ssh_client (self fresh) = PyNone /\
  __del__ (double never_fails) fresh =
    mkRun (Ok PyNone) fresh
          [ELogInfo "Log source: SSHClient";
           ELogInfo "'NoneType' object has no attribute 'close'"].
Proof.
  split; [reflexivity |].
  exact (disposal_without_client (double never_fails) fresh eq_refl).
Defined.

Lemma disposed_session_still_delegates_witness :
  ssh_client (self connected) = PyRef 1 /\
  events (execute (double never_fails) "uptime" PyNone
            (final (__del__ (double never_fails) connected)))
    = [ECall (exec_command 1 "uptime" PyNone)
             (Returns (PyTuple [PyRef 5; PyRef 6; PyRef 7]))].
Proof.
  split; [reflexivity |].
  exact (proj1 (proj2 (disposed_session_still_delegates
                         (double never_fails) connected))
               1 "uptime" PyNone eq_refl).
Defined.

Lemma disposal_only_closes_witness :
  In (ECall (close 4) (Returns PyNone))
     (events (__del__ (double never_fails) connected)) /\
  exists a, close 4 = close a /\
            (ssh_client (self connected) = PyRef a \/
             scp_client (self connected) = PyRef a).
Proof.
  assert (Hin : In (ECall (close 4) (Returns PyNone))
                   (events (__del__ (double never_fails) connected))).
  { vm_compute. right; left; reflexivity. }
  split; [exact Hin |].
  exact (proj1 (disposal_only_closes (double never_fails) connected)
               (close 4) (Returns PyNone) Hin).
Defined.

Lemma disposal_log_shape_witness :
  result (__del__ (double never_fails) connected) = Ok PyNone /\
  exists msg,
    log_records (events (__del__ (double never_fails) connected))
      = ["Log source: SSHClient"; msg].
Proof.
  split; [reflexivity |].
  exact (proj1 (disposal_log_shape (double never_fails) connected) eq_refl).
Defined.

Lemma operations_without_collaborator_witness :
  scp_client (self fresh) = PyNone /\
  get (double never_fails) "/etc/motd" "." false fresh =
    mkRun (Err (mkExn AttributeError
                  "'NoneType' object has no attribute 'get'")) fresh [].
Proof.
  split; [reflexivity |].
  exact (proj1 (proj1 (operations_without_collaborator
                         (double never_fails) fresh) eq_refl)
               "/etc/motd" "." false).
Defined.

Lemma disposal_closes_what_construction_opened_witness :
  result connected_run = Ok (self connected) /\
  In (ECall paramiko_SSHClient (Returns (PyRef 1))) (events connected_run) /\
  In (ECall (SCPClient (PyRef 3)) (Returns (PyRef 4))) (events connected_run) /\
  double never_fails (close 1) (ext connected) = (Returns PyNone, 5) /\
  double never_fails (close 4) 5 = (Returns PyNone, 5) /\
  events (__del__ (double never_fails) connected) =
    [ECall (close 1) (Returns PyNone);
     ECall (close 4) (Returns PyNone);
     ELogInfo "Log source: SSHClient";
     ELogInfo "Connection with example.org host has been closed..."].
Proof.
  assert (Hnew : In (ECall paramiko_SSHClient (Returns (PyRef 1)))
                    (events connected_run)).
  { vm_compute. left; reflexivity. }
  assert (Hbind : In (ECall (SCPClient (PyRef 3)) (Returns (PyRef 4)))
                     (events connected_run)).
  { vm_compute. do 6 right; left; reflexivity. }
  split; [reflexivity |]. split; [exact Hnew |]. split; [exact Hbind |].
  split; [reflexivity |]. split; [reflexivity |].
  exact (disposal_closes_what_construction_opened (double never_fails)
           "example.org" 22 "root" "root" fresh (self connected) 1 4
           (PyRef 3) PyNone PyNone 5 5 eq_refl Hnew Hbind eq_refl eq_refl).
Defined.

Lemma disposal_after_any_failed_construction_witness :
  close_errors_are_Exceptions (double bind_fails) /\
  result half_built_run = Err (mkExn SCPException "cannot open channel") /\
  result (__del__ (double bind_fails) (final half_built_run)) = Ok PyNone.
Proof.
  split; [exact (double_close_errors bind_fails bind_fails_Exceptions) |].
  split; [reflexivity |].
  exact (proj1 (disposal_after_any_failed_construction (double bind_fails)
                  "example.org" 22 "root" "root" fresh
                  (mkExn SCPException "cannot open channel")
                  (double_close_errors bind_fails bind_fails_Exceptions)
                  eq_refl)).
Defined.
